(** * script/run_vunit.py: the VUnit launcher of the PD-PHY project

    The module body of [run_vunit.py] is five calls into the VUnit
    framework and nothing else.  The framework itself is not part of the
    project, so the script is embedded as an interaction tree over the calls
    it makes, and it is run against an arbitrary framework: a state type, the
    state of the freshly imported module in a given process, and a handler
    that says how each call ends. *)

From stdpp Require Import gmap strings list.
From Stdlib Require Import ZArith Ascii.

Open Scope string_scope.
Open Scope Z_scope.

(** ** Python values, calls and their outcomes *)

Module Py.

(** The values the script handles: names bound by an import statement,
    references to objects the framework has returned, string literals. *)
Inductive value : Type :=
| Imported (name : string)
| Object (id : N)
| Str (s : string)
| PyNone.

(** [receiver.method(args)] *)
Record call : Type := Call {
  receiver : value;
  method : string;
  args : list value
}.

Record exn : Type := Exception { exn_class : string; exn_message : string }.

(** A call returns a value, raises an exception, or leaves the process
    through [sys.exit].  Python carries an exit request up the stack as
    [SystemExit], but it is no error and the interpreter keeps the two apart
    at top level: an uncaught exception prints a traceback and gives status
    1, an exit request gives the status it carries.  So does the model. *)
Inductive outcome : Type :=
| Returned (v : value)
| Raised (e : exn)
| Exited (status : Z).

(** How the process ends. *)
Inductive termination : Type :=
| Finished                 (* the module body ran to its end *)
| Uncaught (e : exn)       (* an exception reached the top level *)
| SysExit (status : Z).    (* [sys.exit(status)] reached the top level *)

(** The status the parent sees after [sys.exit(st)]: the interpreter takes
    the request as a C [long] (one that does not fit counts as -1), and the
    system keeps the low eight bits, so [sys.exit(256)] gives 0 and
    [sys.exit(-1)] gives 255. *)
Definition process_status (st : Z) : Z :=
  if decide (- 2 ^ 63 ≤ st < 2 ^ 63) then st mod 256 else 255.

Definition exit_status (t : termination) : Z :=
  match t with
  | Finished => 0
  | Uncaught _ => 1
  | SysExit st => process_status st
  end.

(** What the interpreter does with the outcome of the last statement of a
    module body that has no handler around it. *)
Definition ends (o : outcome) : termination :=
  match o with
  | Returned _ => Finished
  | Raised e => Uncaught e
  | Exited st => SysExit st
  end.

Definition returned (o : outcome) : bool :=
  match o with Returned _ => true | _ => false end.

#[global] Instance value_eq_dec : EqDecision value.
Proof. solve_decision. Defined.
#[global] Instance call_eq_dec : EqDecision call.
Proof. solve_decision. Defined.
#[global] Instance exn_eq_dec : EqDecision exn.
Proof. solve_decision. Defined.
#[global] Instance outcome_eq_dec : EqDecision outcome.
Proof. solve_decision. Defined.
#[global] Instance termination_eq_dec : EqDecision termination.
Proof. solve_decision. Defined.

End Py.
Import Py.

Notation "r @ m args" := (Call r m args)
  (at level 10, m at level 0, args at level 0, only parsing).

(** ** Straight-line scripts *)

(** A module body without control flow: either it is over, or it makes a
    call and goes on with the value the call returned.  There is no node for
    [try], for a loop or for a branch, because the script has none. *)
Inductive script : Type :=
| Done
| Invoke (c : call) (k : value → script).

Notation "x <~ c ;; k" := (Invoke c (fun x => k))
  (at level 100, c at next level, k at level 200, right associativity,
   format "'[v' x  <~  c  ;; '/' k ']'").
Notation "'do' c ;; k" := (Invoke c (fun _ => k))
  (at level 100, c at next level, k at level 200, right associativity,
   format "'[v' 'do'  c  ;; '/' k ']'").

(** ** The script *)

(** [from vunit import VUnit]: the statement binds the name; what stands
    behind it is the framework a run is given. *)
Definition VUnit : value := Imported "VUnit".

Definition design_glob : string := "../src/design/*.vhd".
Definition test_glob : string := "../src/test/*.vhd".

(** The module body, line by line. *)
Definition run_vunit : script :=
  vu <~ VUnit @ "from_argv" [] ;;
  lib <~ vu @ "add_library" [Str "lib"] ;;
  do lib @ "add_source_files" [Str design_glob] ;;
  do lib @ "add_source_files" [Str test_glob] ;;
  do vu @ "main" [] ;;
  Done.

(** ** Processes and frameworks *)

(** What a run can depend on from outside: the argument vector (with the
    script's path, as invoked, in front), the working directory and the
    regular files that exist, the last two as absolute paths split into their
    components. *)
Record world : Type := World {
  argv : list string;
  cwd : list string;
  fs : list (list string)
}.

(** An implementation of whatever the import statement binds. *)
Record framework : Type := Framework {
  fstate : Type;
  boot : world → fstate;
  handle : call → fstate → outcome * fstate
}.

(** One call as it happened. *)
Record event (S : Type) : Type := Event {
  ev_call : call;
  ev_pre : S;
  ev_outcome : outcome;
  ev_post : S
}.
Arguments Event {S}.
Arguments ev_call {S}.
Arguments ev_pre {S}.
Arguments ev_outcome {S}.
Arguments ev_post {S}.

(** Running a script: calls are made in order; the first one that does not
    return ends the process. *)
Fixpoint exec (fw : framework) (p : script) (s : fstate fw)
  : list (event (fstate fw)) * termination :=
  match p with
  | Done => ([], Finished)
  | Invoke c k =>
      let '(o, s') := handle fw c s in
      let e := Event c s o s' in
      match o with
      | Returned v => let '(tr, t) := exec fw (k v) s' in (e :: tr, t)
      | _ => ([e], ends o)
      end
  end.

Definition run (fw : framework) (w : world) : list (event (fstate fw)) * termination :=
  exec fw run_vunit (boot fw w).

Definition trace (fw : framework) (w : world) : list (event (fstate fw)) := (run fw w).1.
Definition outcome_of_run (fw : framework) (w : world) : termination := (run fw w).2.
Definition calls (fw : framework) (w : world) : list call := ev_call <$> trace fw w.

(** The values the calls of a trace returned, in order. *)
Definition reply {S : Type} (ev : event S) : option value :=
  match ev_outcome ev with Returned v => Some v | _ => None end.
Definition replies {S : Type} (tr : list (event S)) : list value := omap reply tr.

(** The calls a script makes when it is answered with the given values, one
    per call, for as long as there are answers. *)
Fixpoint path (p : script) (answers : list value) : list call :=
  match p with
  | Done => []
  | Invoke c k =>
      c :: match answers with
           | [] => []
           | v :: vs => path (k v) vs
           end
  end.

(** The five statements of the module body, for the two objects the
    framework hands out. *)
Definition plan (vu lib : value) : list call :=
  [ VUnit @ "from_argv" [];
    vu @ "add_library" [Str "lib"];
    lib @ "add_source_files" [Str design_glob];
    lib @ "add_source_files" [Str test_glob];
    vu @ "main" [] ].

(** The [i]th value the framework returned in a run, [None] of Python when
    there is none. *)
Definition answer {S : Type} (tr : list (event S)) (i : nat) : value :=
  default PyNone (tr !! i ≫= reply).

(** What a call looks like apart from the object it is made on. *)
Definition signature (c : call) : string * list value := (method c, args c).

Definition plan_signatures : list (string * list value) :=
  [ ("from_argv", []);
    ("add_library", [Str "lib"]);
    ("add_source_files", [Str design_glob]);
    ("add_source_files", [Str test_glob]);
    ("main", []) ].

(** ** Paths and [glob], as the Python runtime has them on POSIX

    [add_source_files] is documented to take a pattern matching the files to
    add; the files are found with the runtime's [glob.glob].  The part of it
    that patterns with wildcards in their last component need is modelled
    here: bracket classes and wildcards in the directory part are left out,
    neither pattern of the script has any. *)

(** [s.split(sep)] *)
Fixpoint split_on (sep : ascii) (s : string) : list string :=
  match s with
  | EmptyString => [EmptyString]
  | String c s' =>
      if Ascii.eqb c sep then EmptyString :: split_on sep s'
      else match split_on sep s' with
           | [] => [String c EmptyString]
           | x :: xs => String c x :: xs
           end
  end.

Definition components (p : string) : list string := split_on "/" p.

(** [os.path.split]: the directory part and the last component. *)
Definition dirname (p : string) : list string := removelast (components p).
Definition basename (p : string) : string := List.last (components p) "".

(** One step of path lookup from directory [d]: an empty component and [.]
    stay, [..] goes to the parent (the root is its own parent), a name goes
    down. *)
Definition walk_step (d : list string) (c : string) : list string :=
  if decide (c = "" ∨ c = ".") then d
  else if decide (c = "..") then removelast d
  else d ++ [c].

Definition walk (d : list string) (p : list string) : list string :=
  foldl walk_step d p.

(** Where a path leads: from the root when it starts with a slash, from the
    working directory of the process otherwise. *)
Definition resolve (w : world) (p : list string) : list string :=
  match p with
  | "" :: _ => walk [] p
  | _ => walk (cwd w) p
  end.

(** [drop_prefix d f] is the rest of [f] below directory [d]. *)
Fixpoint drop_prefix (d f : list string) : option (list string) :=
  match d, f with
  | [], _ => Some f
  | x :: d', y :: f' => if decide (x = y) then drop_prefix d' f' else None
  | _ :: _, [] => None
  end.

(** [os.listdir]: the entries directly in directory [d], files and
    subdirectories alike.  A world lists regular files, so a directory is
    there when a file lies below it: empty directories, links and special
    files are beyond it, and nothing is said about them. *)
Definition listdir (w : world) (d : list string) : list string :=
  remove_dups (omap (λ f, drop_prefix d f ≫= head) (fs w)).

(** [fnmatch.fnmatch]: [*] stands for any run of characters, [?] for one. *)
Fixpoint fnmatch (pat name : string) {struct pat} : bool :=
  match pat with
  | EmptyString => match name with EmptyString => true | _ => false end
  | String c pat' =>
      if Ascii.eqb c "*" then
        (fix star (n : string) : bool :=
           fnmatch pat' n ||
           match n with EmptyString => false | String _ n' => star n' end) name
      else
        match name with
        | EmptyString => false
        | String d name' =>
            (Ascii.eqb c "?" || Ascii.eqb c d) && fnmatch pat' name'
        end
  end.

Definition ishidden (name : string) : bool :=
  match name with String "." _ => true | _ => false end.

(** [glob.glob(pattern)]: the entries of the pattern's directory whose name
    matches its last component, each returned with the directory part of the
    pattern in front.  A leading dot is matched only by a pattern that has
    one. *)
Definition glob_names (w : world) (pattern : string) : list string :=
  filter (λ name, fnmatch (basename pattern) name = true ∧
                  (ishidden (basename pattern) = false → ishidden name = false))
         (listdir w (resolve w (dirname pattern))).

Definition join (d : list string) (name : string) : string :=
  String.concat "/" (d ++ [name]).

Definition glob (w : world) (pattern : string) : list string :=
  join (dirname pattern) <$> glob_names w pattern.

(** The directory the script lies in: the directory part of [sys.argv[0]],
    looked up like any other path. *)
Definition script_dir (w : world) : list string :=
  resolve w (dirname (default "" (head (argv w)))).

(** Where the directory part of a pattern would lead if it were looked up
    from the script's directory. *)
Definition from_script_dir (w : world) (pattern : string) : list string :=
  walk (script_dir w) (dirname pattern).

Definition ends_with (suffix s : string) : Prop := ∃ stem, s = stem +:+ suffix.

(** ** What the script relies on from the framework

    The part of VUnit's documented behaviour that the registration of source
    files rests on, for a framework [fw] in a process [w]: which states the
    framework can be in there, which files a library object holds, and how
    the two registration methods change that. *)
Record vunit_contract (fw : framework) (w : world) : Type := VUnitContract {
  in_process : fstate fw → Prop;
  library_files : fstate fw → value → option (gset string);
  valid_source : string → Prop;
  boot_in_process : in_process (boot fw w);
  handle_in_process : ∀ c s o s',
    in_process s → handle fw c s = (o, s') → in_process s';
  (* a library that [add_library] returns is new and holds no file *)
  add_library_fresh : ∀ s vu name lib s',
    in_process s →
    handle fw (vu @ "add_library" [Str name]) s = (Returned lib, s') →
    library_files s' lib = Some ∅;
  (* when [add_source_files] returns, the library holds the matches too *)
  add_source_files_adds : ∀ s lib pattern F r s',
    in_process s →
    library_files s lib = Some F →
    handle fw (lib @ "add_source_files" [Str pattern]) s = (Returned r, s') →
    library_files s' lib = Some (F ∪ list_to_set (glob w pattern));
  (* it returns when the pattern matches valid source files, at least one *)
  add_source_files_returns : ∀ s lib pattern F,
    in_process s →
    library_files s lib = Some F →
    glob w pattern ≠ [] →
    Forall valid_source (glob w pattern) →
    returned (handle fw (lib @ "add_source_files" [Str pattern]) s).1 = true
}.
Arguments in_process {fw w}.
Arguments library_files {fw w}.
Arguments valid_source {fw w}.

(** The documented behaviour of the entry point: [main] runs the tests and
    exits, it does not return; it asks for status 0 when all tests of the
    object it is called on passed and for a status from 1 to 255 when not,
    and an error that escapes it is not a pass. *)
Definition main_reports (fw : framework) (all_passed : fstate fw → value → bool) : Prop :=
  ∀ vu s,
    match (handle fw (vu @ "main" []) s).1 with
    | Exited st => (all_passed s vu = true → st = 0) ∧
                   (all_passed s vu = false → 0 < st < 256)
    | Raised _ => all_passed s vu = false
    | Returned _ => False
    end.

(** ** A reference framework

    A small framework that behaves the way VUnit documents, to run the
    script on concrete processes.  [allow_empty] says whether a pattern
    without a match is tolerated (VUnit's option of that name; it raises by
    default), [verdict] whether the tests over the registered files pass. *)
Record ref_state : Type := RefState {
  rs_world : world;
  rs_next : N;                               (* next object identity *)
  rs_vunit : option N;                       (* the VUnit object, once made *)
  rs_parsed : list string;                   (* the arguments it parsed *)
  rs_libraries : gmap N (string * gset string)   (* library objects *)
}.

Definition ref_boot (w : world) : ref_state := RefState w 0%N None [] ∅.

Definition ref_files (s : ref_state) : gset string :=
  map_fold (λ _ l acc, l.2 ∪ acc) ∅ (rs_libraries s).

Definition ref_from_argv (s : ref_state) : outcome * ref_state :=
  let given := tail (argv (rs_world s)) in
  if decide ("--help" ∈ given) then (Exited 0, s)
  else (Returned (Object (rs_next s)),
        RefState (rs_world s) (N.succ (rs_next s)) (Some (rs_next s)) given
                 (rs_libraries s)).

Definition ref_add_library (name : string) (s : ref_state) : outcome * ref_state :=
  if decide (name ∈ (map_to_list (rs_libraries s)).*2.*1) then
    (Raised (Exception "ValueError" "library already exists"), s)
  else (Returned (Object (rs_next s)),
        RefState (rs_world s) (N.succ (rs_next s)) (rs_vunit s) (rs_parsed s)
                 (<[rs_next s := (name, ∅)]> (rs_libraries s))).

Definition ref_add_source_files (allow_empty : bool) (l : N) (name : string)
    (files : gset string) (pattern : string) (s : ref_state) : outcome * ref_state :=
  let found := glob (rs_world s) pattern in
  if decide (found = [] ∧ allow_empty = false) then
    (Raised (Exception "ValueError" "pattern did not match any file"), s)
  else (Returned (Object (rs_next s)),
        RefState (rs_world s) (N.succ (rs_next s)) (rs_vunit s) (rs_parsed s)
                 (<[l := (name, files ∪ list_to_set found)]> (rs_libraries s))).

Definition ref_main (verdict : gset string → bool) (s : ref_state) : outcome * ref_state :=
  (Exited (if verdict (ref_files s) then 0 else 1), s).

Definition no_such_method (s : ref_state) : outcome * ref_state :=
  (Raised (Exception "AttributeError" "no such method"), s).

Definition ref_handle (allow_empty : bool) (verdict : gset string → bool)
    (c : call) (s : ref_state) : outcome * ref_state :=
  match receiver c, args c with
  | Imported cls, [] =>
      if decide (cls = "VUnit" ∧ method c = "from_argv") then ref_from_argv s
      else no_such_method s
  | Object o, [] =>
      if decide (rs_vunit s = Some o ∧ method c = "main") then ref_main verdict s
      else no_such_method s
  | Object o, [Str a] =>
      if decide (rs_vunit s = Some o ∧ method c = "add_library") then
        ref_add_library a s
      else
        match rs_libraries s !! o with
        | Some (name, files) =>
            if decide (method c = "add_source_files") then
              ref_add_source_files allow_empty o name files a s
            else no_such_method s
        | None => no_such_method s
        end
  | _, _ => no_such_method s
  end.

Definition ref_vunit (allow_empty : bool) (verdict : gset string → bool) : framework :=
  Framework ref_state ref_boot (ref_handle allow_empty verdict).

Definition ref_library_files (s : ref_state) (v : value) : option (gset string) :=
  match v with
  | Object o => snd <$> rs_libraries s !! o
  | _ => None
  end.

(** Whether the tests of the object [vu] pass, for the reference framework. *)
Definition ref_all_passed (verdict : gset string → bool) (s : ref_state) (vu : value) : bool :=
  match vu with
  | Object o => if decide (rs_vunit s = Some o) then verdict (ref_files s) else false
  | _ => false
  end.

(** The states the reference framework goes through in process [w]. *)
Definition ref_in_process (w : world) (s : ref_state) : Prop := rs_world s = w.

(** The project as checked out under [/repo], with a stray file in a
    subdirectory of the design sources and one that is not VHDL. *)
Definition repo_files : list (list string) :=
  [ ["repo"; "script"; "run_vunit.py"];
    ["repo"; "src"; "design"; "biphase.vhd"];
    ["repo"; "src"; "design"; "fifo.vhd"];
    ["repo"; "src"; "design"; "old"; "legacy.vhd"];
    ["repo"; "src"; "design"; "notes.txt"];
    ["repo"; "src"; "test"; "biphase_tb.vhd"] ].

(** [cd /repo/script && python run_vunit.py] *)
Definition in_script_dir : world :=
  World ["run_vunit.py"] ["repo"; "script"] repo_files.

(** [cd /repo && python script/run_vunit.py] *)
Definition in_repo_root : world :=
  World ["script/run_vunit.py"] ["repo"] repo_files.

(** [cd /repo/script && python run_vunit.py --help] *)
Definition asking_help : world :=
  World ["run_vunit.py"; "--help"] ["repo"; "script"] repo_files.

(** [cd /repo/script && python run_vunit.py -v lib.tb_fifo.all] *)
Definition with_filter : world :=
  World ["run_vunit.py"; "-v"; "lib.tb_fifo.all"] ["repo"; "script"] repo_files.

(** [cd /repo/script && python run_vunit.py] before any source exists *)
Definition empty_checkout : world :=
  World ["run_vunit.py"] ["repo"; "script"] [["repo"; "script"; "run_vunit.py"]].

(** [cd /repo/script && python run_vunit.py] while an editor holds a lock
    file next to a design source. *)
Definition with_lock_file : world :=
  World ["run_vunit.py"] ["repo"; "script"]
        (["repo"; "src"; "design"; ".#fifo.vhd"] :: repo_files).

Definition passes (_ : gset string) : bool := true.
Definition fails (_ : gset string) : bool := false.

(** VUnit as it comes: a pattern without a match is an error, and here all
    tests pass. *)
Definition strict : framework := ref_vunit false passes.

(** The same with [allow_empty] set, and with a failing test. *)
Definition lenient : framework := ref_vunit true fails.

Definition no_match : exn := Exception "ValueError" "pattern did not match any file".

(** The reading on which the two patterns are looked up from the script's
    own directory. *)
Definition resolved_from_script_dir (w : world) : Prop :=
  resolve w (dirname design_glob) = from_script_dir w design_glob ∧
  resolve w (dirname test_glob) = from_script_dir w test_glob.

(** An entry directly in the directory [d] of a pattern, with a name that
    ends in [.vhd], under the name [glob] gives it. *)
Definition direct_vhd (w : world) (d : list string) (f : string) : Prop :=
  ∃ name, f = join d name ∧
          ends_with ".vhd" name ∧
          ∃ below, (resolve w d ++ name :: below)%list ∈ fs w.

Definition design_dir : list string := [".."; "src"; "design"].
Definition test_dir : list string := [".."; "src"; "test"].

(** The libraries a run makes: what its [add_library] calls returned. *)
Definition made {S : Type} (tr : list (event S)) : list value :=
  omap (λ ev, if decide (method (ev_call ev) = "add_library") then reply ev else None) tr.

(** What the library is due to hold when the [i]th call of the module body
    is about to be made: nothing before the first registration, the design
    matches after it, the test matches as well after the second. *)
Definition due (w : world) (i : nat) : gset string :=
  match i with
  | 0%nat | 1%nat | 2%nat => ∅
  | 3%nat => list_to_set (glob w design_glob)
  | _ => list_to_set (glob w design_glob) ∪ list_to_set (glob w test_glob)
  end.

(** * General facts about running a script *)

Section Exec.
Context (fw : framework).
Implicit Types (p : script) (s : fstate fw) (ev : event (fstate fw)).

Lemma exec_invoke c k s :
  exec fw (Invoke c k) s =
    let o := (handle fw c s).1 in
    let s' := (handle fw c s).2 in
    match o with
    | Returned v => (Event c s o s' :: (exec fw (k v) s').1, (exec fw (k v) s').2)
    | _ => ([Event c s o s'], ends o)
    end.
Proof.
  simpl. destruct (handle fw c s) as [o s']. simpl.
  destruct o; try reflexivity. by destruct (exec fw (k v) s').
Qed.

(** Every recorded event is what the framework did with that call in the
    state the call found. *)
Lemma exec_handled p s ev :
  ev ∈ (exec fw p s).1 →
  handle fw (ev_call ev) (ev_pre ev) = (ev_outcome ev, ev_post ev).
Proof.
  revert s. induction p as [|c k IH]; intros s.
  - simpl. by intros ?%elem_of_nil.
  - rewrite exec_invoke. simpl.
    destruct (handle fw c s) as [o s'] eqn:Hh. simpl.
    destruct o as [v| |]; simpl.
    + intros [->|Hin]%elem_of_cons; [done|]. by eapply IH.
    + by intros ->%list_elem_of_singleton.
    + by intros ->%list_elem_of_singleton.
Qed.

(** The first call finds the state the script was started in, and each
    later call the state its predecessor left. *)
Lemma exec_first_pre p s ev :
  (exec fw p s).1 !! 0%nat = Some ev → ev_pre ev = s.
Proof.
  destruct p as [|c k]; [done|]. rewrite exec_invoke. simpl.
  destruct (handle fw c s).1; simpl; by intros [= <-].
Qed.

Lemma exec_threaded p s i ev ev' :
  (exec fw p s).1 !! i = Some ev →
  (exec fw p s).1 !! S i = Some ev' →
  ev_pre ev' = ev_post ev.
Proof.
  revert s i. induction p as [|c k IH]; intros s i; [done|].
  rewrite exec_invoke. simpl.
  destruct (handle fw c s).1 as [v| |] eqn:Ho; simpl.
  - destruct i as [|i]; simpl.
    + intros [= <-] H1. simpl. by apply exec_first_pre in H1.
    + apply IH.
  - by destruct i.
  - by destruct i.
Qed.

(** Only the last call of a run can fail to return. *)
Lemma exec_inner_returned p s i ev :
  (exec fw p s).1 !! i = Some ev →
  (S i < length (exec fw p s).1)%nat →
  returned (ev_outcome ev) = true.
Proof.
  revert s i. induction p as [|c k IH]; intros s i; [done|].
  rewrite exec_invoke. simpl.
  destruct (handle fw c s).1 as [v| |] eqn:Ho; simpl.
  - destruct i as [|i]; simpl.
    + by intros [= <-] _.
    + intros H1 H2. eapply IH; [done|lia].
  - intros _ H2. lia.
  - intros _ H2. lia.
Qed.

(** So a call that does not return is the last one. *)
Lemma exec_stops p s ev :
  ev ∈ (exec fw p s).1 →
  returned (ev_outcome ev) = false →
  last (exec fw p s).1 = Some ev.
Proof.
  intros [i Hi]%list_elem_of_lookup Hr.
  rewrite last_lookup.
  pose proof (lookup_lt_Some _ _ _ Hi) as Hlt.
  destruct (decide (S i < length (exec fw p s).1)%nat) as [Hin|Hout].
  - rewrite (exec_inner_returned _ _ _ _ Hi Hin) in Hr. done.
  - replace (pred (length (exec fw p s).1)) with i by lia. done.
Qed.

(** The process ends the way the last call ended; a script that makes no
    call just finishes. *)
Lemma exec_ends p s :
  (exec fw p s).2 =
    from_option (λ ev, ends (ev_outcome ev)) Finished (last (exec fw p s).1).
Proof.
  revert s. induction p as [|c k IH]; intros s; [done|].
  rewrite exec_invoke. simpl.
  destruct (handle fw c s).1 as [v| |] eqn:Ho; simpl; rewrite ?Ho; try done.
  rewrite IH.
  by destruct (exec fw (k v) (handle fw c s).2).1 as [|ev tr] eqn:Htr.
Qed.

(** The calls made are the script's path under the answers received. *)
Lemma exec_path p s :
  ev_call <$> (exec fw p s).1 = path p (replies (exec fw p s).1).
Proof.
  revert s. induction p as [|c k IH]; intros s; [done|].
  rewrite exec_invoke. simpl.
  destruct (handle fw c s).1 as [v| |] eqn:Ho; simpl;
    unfold replies, reply; simpl; [|done..].
  f_equal. apply IH.
Qed.

(** What holds of the state at the start and is kept by every call holds
    of the state each call of the run finds. *)
Lemma exec_invariant (P : fstate fw → Prop) p s ev :
  (∀ c s1 o s2, P s1 → handle fw c s1 = (o, s2) → P s2) →
  P s →
  ev ∈ (exec fw p s).1 →
  P (ev_pre ev).
Proof.
  intros Hkeep. revert s. induction p as [|c k IH]; intros s Hs.
  - simpl. by intros ?%elem_of_nil.
  - rewrite exec_invoke. simpl.
    destruct (handle fw c s) as [o s'] eqn:Hh. simpl.
    destruct o as [v| |]; simpl.
    + intros [->|Hin]%elem_of_cons; [done|]. eapply IH; [|done]. by eapply Hkeep.
    + by intros ->%list_elem_of_singleton.
    + by intros ->%list_elem_of_singleton.
Qed.

End Exec.

(** * The run of [run_vunit.py] *)

(** Splitting a run on how each call ends: eleven ways in all, a run to the
    end of the module body and two ways to stop at each of the five calls. *)
Ltac run_cases fw :=
  unfold calls, outcome_of_run, trace, run, run_vunit; simpl;
  repeat match goal with
    | |- context [handle fw ?c ?s] =>
        let o := fresh "o" in
        let Hh := fresh "Hh" in
        destruct (handle fw c s) as [o ?] eqn:Hh;
        destruct o as [?v|?e|?st]; simpl
    end.


Lemma run_signatures fw w : signature <$> calls fw w `prefix_of` plan_signatures.
Proof.
  run_cases fw;
    match goal with
    | |- ?l `prefix_of` _ => by exists (drop (length l) plan_signatures)
    end.
Qed.

Lemma plan_signatures_NoDup : NoDup plan_signatures.
Proof.
  apply NoDup_ListNoDup. unfold plan_signatures.
  repeat (constructor; [simpl; intuition discriminate|]). constructor.
Qed.

Lemma prefix_NoDup {A : Type} (l k : list A) : l `prefix_of` k → NoDup k → NoDup l.
Proof. intros [l' ->] H. by apply NoDup_app in H as [? _]. Qed.

(** The script reads nothing of the process by itself: what it calls is
    settled by what the framework answered. *)
Lemma calls_by_replies fw w w' :
  replies (trace fw w') = replies (trace fw w) → calls fw w' = calls fw w.
Proof.
  intros Heq. unfold calls, trace, run.
  rewrite !exec_path. unfold trace, run in Heq. by rewrite Heq.
Qed.


(** C7. An exception raised by any call of the run, a registration or the
    entry point alike, is the end of the run: the call that raised is the
    last one made, no call is made twice, the exception reaches the top level
    as it is and the exit status is not 0. *)
Theorem C7_exceptions_propagate (fw : framework) (w : world)
    (ev : event (fstate fw)) (e : exn) :
  ev ∈ trace fw w →
  ev_outcome ev = Raised e →
  outcome_of_run fw w = Uncaught e
  ∧ exit_status (outcome_of_run fw w) ≠ 0
  ∧ last (trace fw w) = Some ev
  ∧ NoDup (signature <$> calls fw w).
Proof.
  intros Hin Ho.
  assert (last (trace fw w) = Some ev) as Hlast.
  { apply exec_stops; [done|]. by rewrite Ho. }
  assert (outcome_of_run fw w = Uncaught e) as Hend.
  { unfold outcome_of_run, run. rewrite exec_ends.
    unfold trace, run in Hlast. rewrite Hlast. simpl. by rewrite Ho. }
  repeat split; [done| |done|].
  - by rewrite Hend.
  - eapply prefix_NoDup; [apply run_signatures|apply plan_signatures_NoDup].
Qed.

Lemma registration_goes_on fw w (ev : event (fstate fw)) :
  ev ∈ trace fw w →
  method (ev_call ev) = "add_source_files" →
  returned (ev_outcome ev) = true →
  ∃ i ev', trace fw w !! i = Some ev ∧ trace fw w !! S i = Some ev' ∧
           ev_pre ev' = ev_post ev.
Proof.
  run_cases fw; rewrite ?elem_of_cons, elem_of_nil; intros Hin Hm Hr;
    repeat destruct Hin as [Hin|Hin]; try done; subst ev; try done;
    first [ by exists 2%nat; eexists | by exists 3%nat; eexists ].
Qed.

(** C2 as stated fails.  With VUnit as it comes, a pattern without a match
    is an error of [add_source_files], which nothing in the script handles:
    in a checkout without sources the process ends with the uncaught
    [ValueError] of the first registration, status 1, and makes neither the
    second registration nor the call of [main]. *)
Lemma C2_counterexample :
  glob empty_checkout design_glob = []
  ∧ outcome_of_run strict empty_checkout = Uncaught no_match
  ∧ exit_status (outcome_of_run strict empty_checkout) = 1
  ∧ calls strict empty_checkout = take 3 (plan (Object 0) (Object 1)).
Proof. by vm_compute. Qed.

(** C2, amended. When the script registers a pattern that matches nothing,
    what happens is what the framework does with it, and the script neither
    checks nor handles anything.  If the call raises, it is the last call and
    the process ends with that exception uncaught, status 1.  If it returns,
    the script goes on with its next statement in the state the call left,
    and with a framework that keeps VUnit's contract the library holds what
    it held before.  Which calls the script makes is settled by the
    framework's answers, whatever the file system holds. *)
Theorem C2_no_match_left_to_framework (fw : framework) (w : world)
    (ev : event (fstate fw)) (p : string) :
  ev ∈ trace fw w →
  method (ev_call ev) = "add_source_files" →
  args (ev_call ev) = [Str p] →
  glob w p = [] →
  handle fw (ev_call ev) (ev_pre ev) = (ev_outcome ev, ev_post ev)
  ∧ (∀ e, ev_outcome ev = Raised e →
          last (trace fw w) = Some ev ∧
          outcome_of_run fw w = Uncaught e ∧
          exit_status (outcome_of_run fw w) = 1)
  ∧ (returned (ev_outcome ev) = true →
     ∃ i ev', trace fw w !! i = Some ev ∧ trace fw w !! S i = Some ev' ∧
              ev_pre ev' = ev_post ev)
  ∧ (∀ (K : vunit_contract fw w) F,
       library_files K (ev_pre ev) (receiver (ev_call ev)) = Some F →
       returned (ev_outcome ev) = true →
       library_files K (ev_post ev) (receiver (ev_call ev)) = Some F)
  ∧ (∀ w', replies (trace fw w') = replies (trace fw w) → calls fw w' = calls fw w).
Proof.
  intros Hin Hm Ha Hg.
  pose proof (exec_handled _ _ _ _ Hin) as Hh.
  split; [done|]. split; [|split; [|split]].
  - intros e He.
    assert (last (trace fw w) = Some ev) as Hlast.
    { apply exec_stops; [done|]. by rewrite He. }
    split; [done|].
    assert (outcome_of_run fw w = Uncaught e) as ->; [|done].
    unfold outcome_of_run, run. rewrite exec_ends.
    unfold trace, run in Hlast. rewrite Hlast. simpl. by rewrite He.
  - by apply registration_goes_on.
  - intros K F HF Hr.
    assert (in_process K (ev_pre ev)) as Hlive.
    { eapply (exec_invariant fw (in_process K)); [|apply boot_in_process|exact Hin].
      intros c s1 o s2. apply handle_in_process. }
    destruct (ev_call ev) as [lib m a]. simpl in *. subst m a.
    destruct (ev_outcome ev) as [r| |]; try done.
    rewrite (add_source_files_adds _ _ K _ _ _ _ _ _ Hlive HF Hh), Hg.
    by rewrite list_to_set_nil, (right_id_L ∅ (∪)).
  - apply calls_by_replies.
Qed.

(** C3. In a run that reaches [main], the process ends the way that call
    ends, so its exit status is the one the framework produces there; with an
    entry point that does as documented (it exits, asking for 0 when all
    tests passed and for a status from 1 to 255 when not, or fails with an
    error) the status of the process is 0 exactly when all tests passed. *)
Theorem C3_exit_status_from_main (fw : framework) (w : world)
    (ev : event (fstate fw)) :
  ev ∈ trace fw w →
  method (ev_call ev) = "main" →
  outcome_of_run fw w = ends (ev_outcome ev)
  ∧ handle fw (ev_call ev) (ev_pre ev) = (ev_outcome ev, ev_post ev)
  ∧ (∀ all_passed, main_reports fw all_passed →
       (exit_status (outcome_of_run fw w) = 0 ↔
        all_passed (ev_pre ev) (receiver (ev_call ev)) = true)).
Proof.
  intros Hin Hm.
  pose proof (exec_handled _ _ _ _ Hin) as Hh.
  assert (outcome_of_run fw w = ends (ev_outcome ev) ∧ args (ev_call ev) = [])
    as [Hend Hargs].
  { revert Hin Hm. clear Hh. run_cases fw;
      rewrite ?elem_of_cons, elem_of_nil; intros Hin Hm;
      repeat destruct Hin as [Hin|Hin]; try done; subst ev; done. }
  split; [done|]. split; [done|].
  intros all_passed Hmain.
  specialize (Hmain (receiver (ev_call ev)) (ev_pre ev)).
  destruct (ev_call ev) as [r m a]. simpl in *. subst m a.
  rewrite Hh in Hmain. simpl in Hmain. rewrite Hend.
  destruct (ev_outcome ev) as [|e|st]; simpl; [done| |].
  - rewrite Hmain. done.
  - destruct Hmain as [Hpass Hfail].
    destruct (all_passed _ _) eqn:Hap.
    + by rewrite (Hpass eq_refl).
    + specialize (Hfail eq_refl). unfold process_status.
      rewrite decide_True by lia. rewrite Z.mod_small by lia. split; [lia|done].
Qed.

(** C8 as stated fails.  Not every run makes a library: asked for
    [--help], the framework leaves from [from_argv] and the script has made
    none. *)
Lemma C8_counterexample :
  made (trace strict asking_help) = []
  ∧ calls strict asking_help = [VUnit @ "from_argv" []]
  ∧ outcome_of_run strict asking_help = SysExit 0.
Proof. by vm_compute. Qed.

(** C8, amended. A run makes at most one library.  It always starts with
    [from_argv]; when that does not return, no library is made; when it
    returns, the next call is [add_library("lib")] on the object returned,
    and the libraries of the run are the one this call returns, or none when
    it does not return.  [add_library] is called nowhere else and with no
    other name, and every registration of source files is a call on that one
    library. *)
Theorem C8_single_library (fw : framework) (w : world) :
  let tr := trace fw w in
  (∀ vu lib a b c rest,
     filter (λ c, method c = "add_library")
            (path run_vunit (vu :: lib :: a :: b :: c :: rest))
     = [vu @ "add_library" [Str "lib"]])
  ∧ (∃ ev0, tr !! 0%nat = Some ev0 ∧ ev_call ev0 = VUnit @ "from_argv" [] ∧
       match ev_outcome ev0 with
       | Returned vu =>
           ∃ ev1, tr !! 1%nat = Some ev1 ∧
                  ev_call ev1 = vu @ "add_library" [Str "lib"] ∧
                  made tr = match ev_outcome ev1 with
                            | Returned lib => [lib]
                            | _ => []
                            end
       | _ => made tr = []
       end)
  ∧ (∀ ev, ev ∈ tr → method (ev_call ev) = "add_library" →
           args (ev_call ev) = [Str "lib"] ∧ tr !! 1%nat = Some ev)
  ∧ (∀ ev, ev ∈ tr → method (ev_call ev) = "add_source_files" →
           made tr = [receiver (ev_call ev)]).
Proof.
  intros tr. subst tr. split; [done|].
  run_cases fw;
    (split;
     [ eexists; (split; [reflexivity|]); (split; [reflexivity|]); simpl;
       try (eexists; (split; [reflexivity|]); (split; [reflexivity|]); simpl);
       vm_compute; reflexivity |]);
    (split; intros ev; rewrite ?elem_of_cons, elem_of_nil; intros Hin Hm;
     repeat destruct Hin as [Hin|Hin]; try done; subst ev; try done;
     vm_compute; reflexivity).
Qed.


(** * Patterns and what they match *)

Lemma fnmatch_star pat name :
  fnmatch (String "*" pat) name = true →
  ∃ stem rest, name = stem +:+ rest ∧ fnmatch pat rest = true.
Proof.
  induction name as [|a name IH]; simpl in *.
  - rewrite orb_false_r. intros H. by exists "", "".
  - intros [H|H]%orb_true_iff.
    + by exists "", (String a name).
    + destruct (IH H) as (stem & rest & -> & Hrest).
      by exists (String a stem), rest.
Qed.

Lemma fnmatch_char c pat name :
  c ≠ "*"%char → c ≠ "?"%char →
  fnmatch (String c pat) name = true →
  ∃ rest, name = String c rest ∧ fnmatch pat rest = true.
Proof.
  intros Hstar Hany. cbn [fnmatch].
  destruct (Ascii.eqb_spec c "*") as [|_]; [done|].
  destruct name as [|d name]; [done|].
  destruct (Ascii.eqb_spec c "?") as [|_]; [done|].
  destruct (Ascii.eqb_spec c d) as [<-|_]; [|done].
  simpl. by exists name.
Qed.

Lemma fnmatch_dot_vhd name : fnmatch ".vhd" name = true → name = ".vhd".
Proof.
  intros (n1 & -> & H)%fnmatch_char; [|done..].
  apply fnmatch_char in H as (n2 & -> & H); [|done..].
  apply fnmatch_char in H as (n3 & -> & H); [|done..].
  apply fnmatch_char in H as (n4 & -> & H); [|done..].
  by destruct n4.
Qed.

Lemma fnmatch_vhd name : fnmatch "*.vhd" name = true → ends_with ".vhd" name.
Proof.
  intros (stem & rest & -> & ->%fnmatch_dot_vhd)%fnmatch_star. by exists stem.
Qed.

Lemma drop_prefix_Some d f below : drop_prefix d f = Some below → f = (d ++ below)%list.
Proof.
  revert f. induction d as [|x d IH]; intros [|y f]; simpl; try done.
  - by intros [= <-].
  - by intros [= <-].
  - case_decide; [|done]. subst y. by intros ->%IH.
Qed.

Lemma elem_of_listdir w d name :
  name ∈ listdir w d → ∃ below, (d ++ name :: below)%list ∈ fs w.
Proof.
  unfold listdir. rewrite elem_of_remove_dups, list_elem_of_omap.
  intros (f & Hf & Hname).
  destruct (drop_prefix d f) as [[|n below]|] eqn:Hd; simpl in Hname; try done.
  simplify_eq. apply drop_prefix_Some in Hd as ->. by exists below.
Qed.

Lemma elem_of_glob w pattern f :
  f ∈ glob w pattern →
  ∃ name, f = join (dirname pattern) name ∧
          fnmatch (basename pattern) name = true ∧
          name ∈ listdir w (resolve w (dirname pattern)).
Proof.
  unfold glob, glob_names. rewrite list_elem_of_fmap.
  intros (name & -> & [[Hm _] Hin]%list_elem_of_filter). by exists name.
Qed.

Lemma glob_design w f : f ∈ glob w design_glob → direct_vhd w design_dir f.
Proof.
  intros (name & -> & Hm & Hin)%elem_of_glob.
  exists name. split; [done|]. split; [by apply fnmatch_vhd|].
  by apply elem_of_listdir.
Qed.

Lemma glob_test w f : f ∈ glob w test_glob → direct_vhd w test_dir f.
Proof.
  intros (name & -> & Hm & Hin)%elem_of_glob.
  exists name. split; [done|]. split; [by apply fnmatch_vhd|].
  by apply elem_of_listdir.
Qed.

(** * Registration under the framework's contract *)

Section Contract.
Context {fw : framework} {w : world} (K : vunit_contract fw w).

Ltac live :=
  pose proof (boot_in_process _ _ K);
  repeat match goal with
    | I : in_process K ?s, Hh : handle fw _ ?s = (_, ?s') |- _ =>
        lazymatch goal with
        | _ : in_process K s' |- _ => fail
        | _ => pose proof (handle_in_process _ _ K _ _ _ _ I Hh)
        end
    end.

Ltac registered :=
  live;
  try match goal with
    | I : in_process K ?s,
      Hh : handle fw (Call _ "add_library" _) ?s = (Returned _, _) |- _ =>
        pose proof (add_library_fresh _ _ K _ _ _ _ _ I Hh) as L0
    end;
  try match goal with
    | I : in_process K ?s, L0 : library_files K ?s ?l = Some _,
      Hh : handle fw (Call ?l _ [Str design_glob]) ?s = (Returned _, _) |- _ =>
        pose proof (add_source_files_adds _ _ K _ _ _ _ _ _ I L0 Hh) as L1
    end;
  try match goal with
    | I : in_process K ?s, L1 : library_files K ?s ?l = Some _,
      Hh : handle fw (Call ?l _ [Str test_glob]) ?s = (Returned _, _) |- _ =>
        pose proof (add_source_files_adds _ _ K _ _ _ _ _ _ I L1 Hh) as L2
    end.

(** From the moment the library exists to the entry into [main], it holds
    what is due. *)
Lemma library_contents (lib : value) (ev1 ev : event (fstate fw)) (i : nat) :
  trace fw w !! 1%nat = Some ev1 →
  ev_outcome ev1 = Returned lib →
  trace fw w !! i = Some ev →
  (2 ≤ i)%nat →
  library_files K (ev_pre ev) lib = Some (due w i).
Proof.
  run_cases fw; intros [= <-]; simpl; intros [= <-];
    do 2 (destruct i as [|i]; [lia|]);
    repeat (destruct i as [|i]; simpl; try done);
    intros [= <-] _; simpl; registered;
    rewrite ?(left_id_L ∅ (∪)) in *; done.
Qed.

(** Both registrations return when each pattern matches valid source files,
    at least one. *)
Lemma registrations_return (lib : value) (ev1 : event (fstate fw)) :
  trace fw w !! 1%nat = Some ev1 →
  ev_outcome ev1 = Returned lib →
  glob w design_glob ≠ [] → glob w test_glob ≠ [] →
  Forall (valid_source K) (glob w design_glob) →
  Forall (valid_source K) (glob w test_glob) →
  ∃ ev4, trace fw w !! 4%nat = Some ev4 ∧ ev_call ev4 = answer (trace fw w) 0 @ "main" [].
Proof.
  intros H1 Hlib Hd Ht Hvd Hvt. revert H1 Hlib.
  run_cases fw; intros [= <-]; simpl; intros [= <-]; registered;
    try (by eexists);
    try (unshelve epose proof (add_source_files_returns _ _ K _ _ _ _ _ L0 Hd Hvd) as Hr;
         [done|]; rewrite Hh1 in Hr; done);
    try (unshelve epose proof (add_source_files_returns _ _ K _ _ _ _ _ L1 Ht Hvt) as Hr;
         [done|]; rewrite Hh2 in Hr; done).
Qed.

End Contract.

(** C5. With a framework that keeps VUnit's contract, once the library
    [lib] has been made: if each pattern matches valid source files, at
    least one, the run gets to [main], and the library then holds exactly the
    matches of the design pattern together with those of the test pattern. *)
Theorem C5_registered_is_union (fw : framework) (w : world)
    (K : vunit_contract fw w) (lib : value) (ev1 : event (fstate fw)) :
  trace fw w !! 1%nat = Some ev1 →
  ev_outcome ev1 = Returned lib →
  glob w design_glob ≠ [] →
  glob w test_glob ≠ [] →
  Forall (valid_source K) (glob w design_glob) →
  Forall (valid_source K) (glob w test_glob) →
  ∃ ev4, trace fw w !! 4%nat = Some ev4 ∧
         method (ev_call ev4) = "main" ∧
         library_files K (ev_pre ev4) lib =
           Some (list_to_set (glob w design_glob) ∪ list_to_set (glob w test_glob)).
Proof.
  intros H1 Hlib Hd Ht Hvd Hvt.
  destruct (registrations_return K lib ev1) as (ev4 & H4 & Hcall); try done.
  exists ev4. split; [done|]. split; [by rewrite Hcall|].
  apply (library_contents K lib ev1 ev4 4%nat); [done..|lia].
Qed.

(** C9. Whatever either pattern matches is an entry directly in the
    pattern's directory, [../src/design] or [../src/test], with a name that
    ends in [.vhd]; and with a framework that keeps VUnit's contract, the
    library holds nothing but such entries at any point from its making to
    the entry into [main]. *)
Theorem C9_only_vhd_directly_in_dirs (fw : framework) (w : world)
    (K : vunit_contract fw w) (lib : value) (ev1 ev : event (fstate fw))
    (i : nat) (F : gset string) (f : string) :
  trace fw w !! 1%nat = Some ev1 →
  ev_outcome ev1 = Returned lib →
  trace fw w !! i = Some ev →
  (2 ≤ i)%nat →
  library_files K (ev_pre ev) lib = Some F →
  f ∈ F →
  (direct_vhd w design_dir f ∨ direct_vhd w test_dir f)
  ∧ (∀ g, g ∈ glob w design_glob → direct_vhd w design_dir g)
  ∧ (∀ g, g ∈ glob w test_glob → direct_vhd w test_dir g).
Proof.
  intros H1 Hlib Hi Hle HF Hf.
  split; [|split; [apply glob_design|apply glob_test]].
  rewrite (library_contents K lib ev1 ev i) in HF by done.
  injection HF as <-. revert Hf.
  do 2 (destruct i as [|i]; [lia|]). destruct i as [|[|i]]; simpl.
  - by intros ?%elem_of_empty.
  - rewrite elem_of_list_to_set. left. by apply glob_design.
  - rewrite elem_of_union, !elem_of_list_to_set.
    intros [?|?]; [left; by apply glob_design|right; by apply glob_test].
Qed.

Lemma main_reached (fw : framework) (w : world) (ev : event (fstate fw)) :
  ev ∈ trace fw w →
  method (ev_call ev) = "main" →
  trace fw w !! 4%nat = Some ev
  ∧ length (trace fw w) = 5%nat
  ∧ ∃ ev1, trace fw w !! 1%nat = Some ev1 ∧
           ev_outcome ev1 = Returned (answer (trace fw w) 1).
Proof.
  run_cases fw; rewrite ?elem_of_cons, elem_of_nil; intros Hin Hm;
    repeat destruct Hin as [Hin|Hin]; try done; subst ev; try done;
    (split; [done|]); (split; [done|]); by eexists.
Qed.

Lemma run_signatures_take fw w :
  signature <$> calls fw w = take (length (trace fw w)) plan_signatures
  ∧ (1 ≤ length (trace fw w) ≤ 5)%nat.
Proof. run_cases fw; (split; [reflexivity|lia]). Qed.

(** C10. Two runs in processes with the same arguments, working directory
    and files, against frameworks that may answer differently, make the same
    calls as far as both go: each makes an initial part, never empty, of the
    one list of the module body (same methods, same library name, same two
    patterns, same order), the whole of it when they get equally far.  The
    patterns match the same files in both, and with frameworks that keep
    VUnit's contract the library holds the same files in both when [main] is
    entered.  Against one and the same framework the two runs are alike
    throughout. *)
Theorem C10_repeatable (fw1 fw2 : framework) (w1 w2 : world) :
  argv w1 = argv w2 → cwd w1 = cwd w2 → fs w1 = fs w2 →
  let s1 := signature <$> calls fw1 w1 in
  let s2 := signature <$> calls fw2 w2 in
  (s1 `prefix_of` s2 ∨ s2 `prefix_of` s1)
  ∧ (∃ k1 k2, (1 ≤ k1 ≤ 5)%nat ∧ (1 ≤ k2 ≤ 5)%nat ∧
              s1 = take k1 plan_signatures ∧ s2 = take k2 plan_signatures)
  ∧ (length (trace fw1 w1) = length (trace fw2 w2) → s1 = s2)
  ∧ glob w1 design_glob = glob w2 design_glob
  ∧ glob w1 test_glob = glob w2 test_glob
  ∧ (∀ (K1 : vunit_contract fw1 w1) (K2 : vunit_contract fw2 w2) ev1 ev2,
       ev1 ∈ trace fw1 w1 → method (ev_call ev1) = "main" →
       ev2 ∈ trace fw2 w2 → method (ev_call ev2) = "main" →
       ∃ F, library_files K1 (ev_pre ev1) (answer (trace fw1 w1) 1) = Some F ∧
            library_files K2 (ev_pre ev2) (answer (trace fw2 w2) 1) = Some F)
  ∧ (∀ fw, run fw w1 = run fw w2).
Proof.
  destruct w1 as [a1 c1 f1], w2 as [a2 c2 f2]. simpl.
  intros -> -> ->. cbv zeta. set (w := World a2 c2 f2).
  destruct (run_signatures_take fw1 w) as [E1 L1].
  destruct (run_signatures_take fw2 w) as [E2 L2].
  split; [eapply prefix_weak_total; apply run_signatures|].
  split.
  { exists (length (trace fw1 w)), (length (trace fw2 w)).
    split; [lia|]. split; [lia|]. by split. }
  split; [intros Hlen; by rewrite E1, E2, Hlen|].
  split; [done|]. split; [done|]. split; [|done].
  intros K1 K2 ev1 ev2 Hin1 Hm1 Hin2 Hm2.
  destruct (main_reached fw1 w ev1 Hin1 Hm1) as (_ & _ & e1 & H1 & Hl1).
  destruct (main_reached fw2 w ev2 Hin2 Hm2) as (_ & _ & e2 & H2 & Hl2).
  exists (due w 4). split.
  - apply (library_contents K1 _ e1 ev1 4%nat); [done|done| |lia].
    by apply main_reached.
  - apply (library_contents K2 _ e2 ev2 4%nat); [done|done| |lia].
    by apply main_reached.
Qed.

(** * Where the patterns lead *)

Lemma walk_design d : walk d design_dir = (removelast d ++ ["src"; "design"])%list.
Proof.
  unfold walk, design_dir. cbn [foldl]. unfold walk_step.
  repeat case_decide; try (exfalso; intuition congruence). by rewrite <- app_assoc.
Qed.

Lemma walk_test d : walk d test_dir = (removelast d ++ ["src"; "test"])%list.
Proof.
  unfold walk, test_dir. cbn [foldl]. unfold walk_step.
  repeat case_decide; try (exfalso; intuition congruence). by rewrite <- app_assoc.
Qed.

(** C4 as stated fails.  The patterns are not looked up from the script's
    directory: after [cd /repo && python script/run_vunit.py] the design
    pattern leads to [/src/design], where nothing is, and not to
    [/repo/src/design] beside the script, where the sources are. *)
Lemma C4_counterexample :
  ¬ resolved_from_script_dir in_repo_root
  ∧ resolve in_repo_root (dirname design_glob) = ["src"; "design"]
  ∧ from_script_dir in_repo_root design_glob = ["repo"; "src"; "design"]
  ∧ glob in_repo_root design_glob = []
  ∧ listdir in_repo_root (from_script_dir in_repo_root design_glob)
    = ["biphase.vhd"; "fifo.vhd"; "old"; "notes.txt"].
Proof.
  split; [|by vm_compute].
  intros [H _]. vm_compute in H. discriminate H.
Qed.

(** C4, amended. The script hands the framework the two relative patterns
    as they are written, whatever its own location.  They are looked up from
    the working directory of the process and lead to the sibling directories
    [design] and [test] of [../src] there; these are the directories next to
    the script's own exactly when the script's directory and the working
    directory have the same parent, as when the script is run from where it
    lies. *)
Theorem C4_patterns_resolved_from_cwd (fw : framework) (w : world) :
  (∀ c, c ∈ calls fw w → method c = "add_source_files" →
        args c = [Str design_glob] ∨ args c = [Str test_glob])
  ∧ resolve w (dirname design_glob) = ((removelast (cwd w) ++ ["src"]) ++ ["design"])%list
  ∧ resolve w (dirname test_glob) = ((removelast (cwd w) ++ ["src"]) ++ ["test"])%list
  ∧ (resolved_from_script_dir w ↔ removelast (script_dir w) = removelast (cwd w)).
Proof.
  split; [|split; [|split]].
  - intros c. run_cases fw; rewrite ?elem_of_cons, elem_of_nil; intros Hin Hm;
      repeat destruct Hin as [Hin|Hin]; try done; subst c; try done; by eauto.
  - change (resolve w (dirname design_glob)) with (walk (cwd w) design_dir).
    by rewrite walk_design, <- app_assoc.
  - change (resolve w (dirname test_glob)) with (walk (cwd w) test_dir).
    by rewrite walk_test, <- app_assoc.
  - unfold resolved_from_script_dir, from_script_dir.
    change (resolve w (dirname design_glob)) with (walk (cwd w) design_dir).
    change (resolve w (dirname test_glob)) with (walk (cwd w) test_dir).
    change (dirname design_glob) with design_dir.
    change (dirname test_glob) with test_dir.
    rewrite !walk_design, !walk_test. split.
    + intros [H _]. by apply app_inv_tail in H.
    + by intros ->.
Qed.

(** * The reference framework keeps the contract *)

Section Reference.
Context (allow_empty : bool) (verdict : gset string → bool) (w : world).
Abbreviation ref := (ref_vunit allow_empty verdict).

Lemma ref_handle_world c s : rs_world (ref_handle allow_empty verdict c s).2 = rs_world s.
Proof.
  unfold ref_handle, ref_from_argv, ref_main, ref_add_library,
    ref_add_source_files, no_such_method.
  repeat case_match; done.
Qed.

Lemma ref_handle_in_process c s o s' :
  ref_in_process w s → handle ref c s = (o, s') → ref_in_process w s'.
Proof.
  unfold ref_in_process. intros <- Hh.
  pose proof (ref_handle_world c s) as Hw. simpl in Hh. by rewrite Hh in Hw.
Qed.

Lemma ref_add_library_fresh s vu name lib s' :
  ref_in_process w s →
  handle ref (vu @ "add_library" [Str name]) s = (Returned lib, s') →
  ref_library_files s' lib = Some ∅.
Proof.
  intros _. simpl. unfold ref_handle, ref_add_library, no_such_method. simpl.
  repeat case_match; try done; intros [= <- <-]; simpl.
  by rewrite lookup_insert_eq.
Qed.

Lemma ref_add_source_files_adds s lib pattern F r s' :
  ref_in_process w s →
  ref_library_files s lib = Some F →
  handle ref (lib @ "add_source_files" [Str pattern]) s = (Returned r, s') →
  ref_library_files s' lib = Some (F ∪ list_to_set (glob w pattern)).
Proof.
  unfold ref_in_process. intros <-. destruct lib as [|o| |]; try done. simpl.
  destruct (rs_libraries s !! o) as [[name files]|] eqn:Hl; [|done].
  simpl. intros [= <-].
  unfold ref_handle, ref_add_source_files, no_such_method. simpl. rewrite Hl.
  repeat case_decide; try done; try (destruct_and?; done);
    intros [= <- <-]; simpl; by rewrite lookup_insert_eq.
Qed.

Lemma ref_add_source_files_returns s lib pattern F :
  ref_in_process w s →
  ref_library_files s lib = Some F →
  glob w pattern ≠ [] →
  Forall (λ _, True) (glob w pattern) →
  returned (handle ref (lib @ "add_source_files" [Str pattern]) s).1 = true.
Proof.
  unfold ref_in_process. intros <-. destruct lib as [|o| |]; try done. simpl.
  destruct (rs_libraries s !! o) as [[name files]|] eqn:Hl; [|done].
  simpl. intros _ Hne _.
  unfold ref_handle, ref_add_source_files, no_such_method. simpl. rewrite Hl.
  repeat case_decide; try done; destruct_and?; done.
Qed.

Lemma ref_contract : vunit_contract ref w.
Proof.
  exact (VUnitContract ref w (ref_in_process w) ref_library_files (λ _, True)
           eq_refl ref_handle_in_process ref_add_library_fresh
           ref_add_source_files_adds ref_add_source_files_returns).
Defined.

Lemma ref_main_reports : main_reports ref (ref_all_passed verdict).
Proof.
  intros vu s. simpl.
  unfold ref_handle, ref_main, no_such_method, ref_all_passed. simpl.
  destruct vu as [cls|o|a|]; try done.
  - rewrite decide_False by (by intros [_ ?]). done.
  - destruct (decide (rs_vunit s = Some o)) as [Hv|Hv].
    + rewrite decide_True by done. simpl. destruct (verdict _); split; try done; lia.
    + rewrite decide_False by (by intros [? _]). done.
Qed.

End Reference.

(** * The theorems at work on concrete processes *)

Example run_in_script_dir :
  calls strict in_script_dir = plan (Object 0) (Object 1)
  ∧ outcome_of_run strict in_script_dir = SysExit 0.
Proof. by vm_compute. Qed.

Example run_asking_help :
  calls strict asking_help = [VUnit @ "from_argv" []]
  ∧ outcome_of_run strict asking_help = SysExit 0.
Proof. by vm_compute. Qed.

Example run_in_repo_root :
  calls strict in_repo_root = take 3 (plan (Object 0) (Object 1))
  ∧ outcome_of_run strict in_repo_root = Uncaught no_match.
Proof. by vm_compute. Qed.

Example run_lenient_empty :
  calls lenient empty_checkout = plan (Object 0) (Object 1)
  ∧ outcome_of_run lenient empty_checkout = SysExit 1.
Proof. by vm_compute. Qed.

Example arguments_reach_the_parser :
  (λ ev, rs_parsed (ev_post ev)) <$> trace strict with_filter !! 0%nat
  = Some ["-v"; "lib.tb_fifo.all"].
Proof. by vm_compute. Qed.

Example script_directly_under_root :
  script_dir (World ["/run_vunit.py"] ["repo"] repo_files) = []
  ∧ script_dir (World ["/repo/script/run_vunit.py"] [] repo_files) = ["repo"; "script"]
  ∧ script_dir in_repo_root = ["repo"; "script"].
Proof. by vm_compute. Qed.

Example status_keeps_low_eight_bits :
  process_status 256 = 0 ∧ process_status (-1) = 255 ∧ process_status 1 = 1.
Proof. by vm_compute. Qed.

Example glob_skips_subdirectories_and_other_files :
  glob in_script_dir design_glob = ["../src/design/biphase.vhd"; "../src/design/fifo.vhd"]
  ∧ glob in_script_dir test_glob = ["../src/test/biphase_tb.vhd"].
Proof. by vm_compute. Qed.

Lemma C2_witness :
  last (trace strict in_repo_root)
  = (trace strict in_repo_root) !! 2%nat
  ∧ outcome_of_run strict in_repo_root = Uncaught no_match
  ∧ exit_status (outcome_of_run strict in_repo_root) = 1.
Proof.
  eassert (_ ∈ trace strict in_repo_root) as Hin.
  { apply (list_elem_of_lookup_2 _ 2%nat). reflexivity. }
  destruct (C2_no_match_left_to_framework strict in_repo_root _ design_glob
              Hin eq_refl eq_refl eq_refl) as (_ & Hraise & _).
  destruct (Hraise no_match eq_refl) as (Hlast & Hend & Hst).
  split; [by rewrite Hlast|]. by split.
Defined.

Lemma C3_witness : exit_status (outcome_of_run strict in_script_dir) = 0.
Proof.
  eassert (_ ∈ trace strict in_script_dir) as Hin.
  { apply (list_elem_of_lookup_2 _ 4%nat). reflexivity. }
  destruct (C3_exit_status_from_main strict in_script_dir _ Hin eq_refl)
    as (_ & _ & H).
  apply (H _ (ref_main_reports false passes)). vm_compute. reflexivity.
Defined.

Lemma C5_witness :
  ∃ ev4, trace strict in_script_dir !! 4%nat = Some ev4 ∧
         method (ev_call ev4) = "main" ∧
         library_files (ref_contract false passes in_script_dir) (ev_pre ev4) (Object 1) =
           Some (list_to_set (glob in_script_dir design_glob) ∪
                 list_to_set (glob in_script_dir test_glob)).
Proof.
  eapply (C5_registered_is_union strict in_script_dir
            (ref_contract false passes in_script_dir) (Object 1)).
  - reflexivity.
  - reflexivity.
  - vm_compute. discriminate.
  - vm_compute. discriminate.
  - apply Forall_forall. intros; exact I.
  - apply Forall_forall. intros; exact I.
Defined.

Lemma C7_witness :
  outcome_of_run strict empty_checkout = Uncaught no_match
  ∧ exit_status (outcome_of_run strict empty_checkout) ≠ 0.
Proof.
  eassert (_ ∈ trace strict empty_checkout) as Hin.
  { apply (list_elem_of_lookup_2 _ 2%nat). reflexivity. }
  destruct (C7_exceptions_propagate strict empty_checkout _ no_match Hin eq_refl)
    as (H1 & H2 & _).
  by split.
Defined.

Lemma C9_witness :
  direct_vhd in_script_dir design_dir "../src/design/fifo.vhd"
  ∨ direct_vhd in_script_dir test_dir "../src/design/fifo.vhd".
Proof.
  eapply (C9_only_vhd_directly_in_dirs strict in_script_dir
            (ref_contract false passes in_script_dir) (Object 1) _ _ 4%nat
            (list_to_set (glob in_script_dir design_glob) ∪
             list_to_set (glob in_script_dir test_glob))).
  - reflexivity.
  - reflexivity.
  - reflexivity.
  - lia.
  - vm_compute. reflexivity.
  - apply elem_of_union. left. apply elem_of_list_to_set.
    vm_compute (glob _ _). apply list_elem_of_In. simpl. tauto.
Defined.

Lemma C10_witness :
  signature <$> calls strict in_script_dir = signature <$> calls lenient in_script_dir.
Proof.
  destruct (C10_repeatable strict lenient in_script_dir in_script_dir
              eq_refl eq_refl eq_refl) as (_ & _ & Hsame & _).
  apply Hsame. reflexivity.
Defined.

(** * Further properties of the run *)

(** X1. A call that leaves through [sys.exit], whichever of the five it
    is, ends the run there: it is the last call made, the calls up to it are
    the first ones of the module body and none follows (after an exit from
    [from_argv], as on [--help], no library is made), and the process status
    is the requested one as the system reports it, its low eight bits. *)
Theorem X1_exit_requests_end_the_run (fw : framework) (w : world)
    (ev : event (fstate fw)) (st : Z) :
  ev ∈ trace fw w →
  ev_outcome ev = Exited st →
  last (trace fw w) = Some ev
  ∧ calls fw w = take (length (trace fw w))
                      (plan (answer (trace fw w) 0) (answer (trace fw w) 1))
  ∧ (method (ev_call ev) = "from_argv" → trace fw w = [ev])
  ∧ outcome_of_run fw w = SysExit st
  ∧ exit_status (outcome_of_run fw w) = process_status st.
Proof.
  run_cases fw; rewrite ?elem_of_cons, elem_of_nil; intros Hin Ho;
    repeat destruct Hin as [Hin|Hin]; try done; subst ev; try done;
    simpl in Ho; injection Ho as <-; repeat split; done.
Qed.

(** X2. [main] is entered only when the whole set-up went through: if the
    run calls [main] at all, it is its fifth call, the four calls before it
    all returned, and the calls were the five of the module body on the
    objects the framework handed out. *)
Theorem X2_main_only_after_setup (fw : framework) (w : world)
    (ev : event (fstate fw)) :
  ev ∈ trace fw w →
  method (ev_call ev) = "main" →
  trace fw w !! 4%nat = Some ev
  ∧ length (trace fw w) = 5%nat
  ∧ (∀ i ev', (i < 4)%nat → trace fw w !! i = Some ev' →
              returned (ev_outcome ev') = true)
  ∧ calls fw w = plan (answer (trace fw w) 0) (answer (trace fw w) 1).
Proof.
  run_cases fw; rewrite ?elem_of_cons, elem_of_nil; intros Hin Hm;
    repeat destruct Hin as [Hin|Hin]; try done; subst ev; try done;
    (split; [done|]); (split; [done|]); (split; [|done]);
    intros i ev' Hi; do 4 (destruct i as [|i]; [by intros [= <-]|]); lia.
Qed.

(** * More on what the two patterns match *)

Lemma elem_of_glob_iff w pattern f :
  f ∈ glob w pattern ↔
  ∃ name, f = join (dirname pattern) name ∧
          fnmatch (basename pattern) name = true ∧
          (ishidden (basename pattern) = false → ishidden name = false) ∧
          name ∈ listdir w (resolve w (dirname pattern)).
Proof.
  unfold glob, glob_names. rewrite list_elem_of_fmap. split.
  - intros (name & -> & [[Hm Hh] Hin]%list_elem_of_filter). by exists name.
  - intros (name & -> & Hm & Hh & Hin). exists name. split; [done|].
    by apply list_elem_of_filter.
Qed.

Lemma join_design_inj x y : join design_dir x = join design_dir y → x = y.
Proof.
  intros H. change ("../src/design/" +:+ x = "../src/design/" +:+ y) in H.
  simpl in H. by injection H.
Qed.

Lemma join_test_inj x y : join test_dir x = join test_dir y → x = y.
Proof.
  intros H. change ("../src/test/" +:+ x = "../src/test/" +:+ y) in H.
  simpl in H. by injection H.
Qed.

Lemma glob_names_NoDup w pattern : NoDup (glob_names w pattern).
Proof. apply NoDup_filter, NoDup_remove_dups. Qed.

Lemma glob_design_NoDup w : NoDup (glob w design_glob).
Proof.
  apply NoDup_fmap_2_strong; [|apply glob_names_NoDup].
  intros x y _ _. apply join_design_inj.
Qed.

Lemma glob_test_NoDup w : NoDup (glob w test_glob).
Proof.
  apply NoDup_fmap_2_strong; [|apply glob_names_NoDup].
  intros x y _ _. apply join_test_inj.
Qed.

Lemma glob_design_test_disjoint w f : f ∈ glob w design_glob → f ∉ glob w test_glob.
Proof.
  intros (n & -> & _)%elem_of_glob (n' & Heq & _)%elem_of_glob.
  change ("../src/design/" +:+ n = "../src/test/" +:+ n') in Heq.
  simpl in Heq. discriminate Heq.
Qed.

Lemma matches_NoDup w : NoDup (glob w design_glob ++ glob w test_glob).
Proof.
  apply NoDup_app. split; [apply glob_design_NoDup|].
  split; [apply glob_design_test_disjoint|apply glob_test_NoDup].
Qed.

Lemma drop_prefix_app d below : drop_prefix d (d ++ below) = Some below.
Proof.
  induction d as [|x d IH]; simpl; [done|]. by rewrite decide_True.
Qed.

Lemma listdir_intro w d name below :
  (d ++ name :: below)%list ∈ fs w → name ∈ listdir w d.
Proof.
  intros Hin. unfold listdir. rewrite elem_of_remove_dups, list_elem_of_omap.
  exists (d ++ name :: below)%list. split; [done|]. by rewrite drop_prefix_app.
Qed.

Lemma fnmatch_star_cons pat a name :
  fnmatch (String "*" pat) (String a name)
  = fnmatch pat (String a name) || fnmatch (String "*" pat) name.
Proof. reflexivity. Qed.

Lemma fnmatch_vhd_intro stem : fnmatch "*.vhd" (stem +:+ ".vhd") = true.
Proof.
  induction stem as [|a stem IH]; [done|].
  change (String a stem +:+ ".vhd") with (String a (stem +:+ ".vhd")).
  rewrite fnmatch_star_cons, IH. apply orb_true_r.
Qed.

(** X4. No file is handed to the library twice: neither pattern yields
    the same name twice, and no name is yielded by both, whatever the file
    system holds. *)
Theorem X4_no_file_matched_twice (w : world) :
  NoDup (glob w design_glob ++ glob w test_glob)
  ∧ (∀ f, f ∈ glob w design_glob → f ∉ glob w test_glob).
Proof. split; [apply matches_NoDup|apply glob_design_test_disjoint]. Qed.

(** X6. An entry whose name begins with a dot is never matched, even when
    the name ends in [.vhd]: neither pattern begins with a dot. *)
Theorem X6_dot_files_never_matched (w : world) (name : string) :
  ishidden name = true →
  (join design_dir name ∉ glob w design_glob)
  ∧ (join test_dir name ∉ glob w test_glob).
Proof.
  intros Hh. split.
  - intros (n & Heq & _ & Hvis & _)%elem_of_glob_iff.
    apply join_design_inj in Heq as <-. rewrite Hvis in Hh; done.
  - intros (n & Heq & _ & Hvis & _)%elem_of_glob_iff.
    apply join_test_inj in Heq as <-. rewrite Hvis in Hh; done.
Qed.

(** X7. The patterns miss nothing they are meant for: every entry directly
    in the directory a pattern leads to, with a name that ends in [.vhd] and
    does not begin with a dot, is matched. *)
Theorem X7_patterns_miss_nothing (w : world) (name : string) (below : list string) :
  ends_with ".vhd" name →
  ishidden name = false →
  ((resolve w design_dir ++ name :: below)%list ∈ fs w →
   join design_dir name ∈ glob w design_glob)
  ∧ ((resolve w test_dir ++ name :: below)%list ∈ fs w →
     join test_dir name ∈ glob w test_glob).
Proof.
  intros [stem ->] Hvis. split; intros Hin; apply elem_of_glob_iff;
    exists (stem +:+ ".vhd");
    (split; [done|]); (split; [apply fnmatch_vhd_intro|]); (split; [done|]);
    by eapply listdir_intro.
Qed.

(** * The library when the tests start, and when they never do *)

(** X3. With a framework that keeps VUnit's contract, whenever [main] is
    entered the library holds the matches of both patterns and nothing else,
    and their number is the number of design matches plus the number of test
    matches: tests never start on a library that is filled in part. *)
Theorem X3_library_complete_at_main (fw : framework) (w : world)
    (K : vunit_contract fw w) (ev : event (fstate fw)) :
  ev ∈ trace fw w →
  method (ev_call ev) = "main" →
  library_files K (ev_pre ev) (answer (trace fw w) 1) =
    Some (list_to_set (glob w design_glob) ∪ list_to_set (glob w test_glob))
  ∧ size (list_to_set (glob w design_glob) ∪ list_to_set (glob w test_glob) : gset string)
    = (length (glob w design_glob) + length (glob w test_glob))%nat.
Proof.
  intros Hin Hm.
  destruct (main_reached fw w ev Hin Hm) as (H4 & _ & ev1 & H1 & Hlib).
  split.
  - apply (library_contents K _ ev1 ev 4%nat); [done..|lia].
  - rewrite <- list_to_set_app_L, size_list_to_set, length_app; [done|].
    apply matches_NoDup.
Qed.

(** X5. The script gives [add_source_files] the pattern and nothing more,
    so a framework that turns down a pattern without a match has the last
    word: with such a framework, when either pattern matches nothing, [main]
    is never entered. *)
Theorem X5_no_match_no_tests (fw : framework) (w : world) :
  (∀ ev p, ev ∈ trace fw w →
           method (ev_call ev) = "add_source_files" →
           args (ev_call ev) = [Str p] →
           glob w p = [] →
           returned (ev_outcome ev) = false) →
  glob w design_glob = [] ∨ glob w test_glob = [] →
  ∀ ev, ev ∈ trace fw w → method (ev_call ev) ≠ "main".
Proof.
  run_cases fw; intros Hstrict Hempty ev;
    rewrite ?elem_of_cons, elem_of_nil; intros Hin;
    repeat destruct Hin as [Hin|Hin]; try done; subst ev; try done;
    exfalso;
    lazymatch type of Hstrict with
    | ∀ ev p, ev ∈ [_; _; ?e2; ?e3; _] → _ =>
        destruct Hempty as [He|He];
        [ specialize (Hstrict e2 design_glob) | specialize (Hstrict e3 test_glob) ]
    end;
    discriminate Hstrict; rewrite ?elem_of_cons; tauto.
Qed.

(** X8. Started from any directory that lies directly under a directory
    [root], the run is offered exactly the entries in the listings of
    [root/src/design] and of [root/src/test] whose names end in [.vhd] and do
    not begin with a dot, each under its name relative to the working
    directory. *)
Theorem X8_matches_under_root (w : world) (root : list string) (d f : string) :
  cwd w = (root ++ [d])%list →
  (f ∈ glob w design_glob ↔
     ∃ name, f = "../src/design/" +:+ name ∧
             ends_with ".vhd" name ∧ ishidden name = false ∧
             name ∈ listdir w (root ++ ["src"; "design"]))
  ∧ (f ∈ glob w test_glob ↔
     ∃ name, f = "../src/test/" +:+ name ∧
             ends_with ".vhd" name ∧ ishidden name = false ∧
             name ∈ listdir w (root ++ ["src"; "test"])).
Proof.
  intros Hcwd.
  assert (resolve w (dirname design_glob) = (root ++ ["src"; "design"])%list) as Hd.
  { change (resolve w (dirname design_glob)) with (walk (cwd w) design_dir).
    by rewrite walk_design, Hcwd, removelast_last. }
  assert (resolve w (dirname test_glob) = (root ++ ["src"; "test"])%list) as Ht.
  { change (resolve w (dirname test_glob)) with (walk (cwd w) test_dir).
    by rewrite walk_test, Hcwd, removelast_last. }
  split; rewrite elem_of_glob_iff; [rewrite Hd|rewrite Ht]; split.
  - intros (name & -> & Hm%fnmatch_vhd & Hvis & Hin). exists name. by auto.
  - intros (name & -> & [stem ->] & Hvis & Hin).
    exists (stem +:+ ".vhd"). split; [done|]. by split; [apply fnmatch_vhd_intro|].
  - intros (name & -> & Hm%fnmatch_vhd & Hvis & Hin). exists name. by auto.
  - intros (name & -> & [stem ->] & Hvis & Hin).
    exists (stem +:+ ".vhd"). split; [done|]. by split; [apply fnmatch_vhd_intro|].
Qed.

(** * The further properties on concrete processes *)

Lemma X1_witness :
  length (trace strict asking_help) = 1%nat
  ∧ exit_status (outcome_of_run strict asking_help) = 0.
Proof.
  eassert (_ ∈ trace strict asking_help) as Hin.
  { apply (list_elem_of_lookup_2 _ 0%nat). reflexivity. }
  destruct (X1_exit_requests_end_the_run strict asking_help _ 0 Hin eq_refl)
    as (_ & _ & Hone & _ & Hst).
  split; [by rewrite (Hone eq_refl)|exact Hst].
Defined.

Lemma X2_witness :
  calls strict in_script_dir
  = plan (answer (trace strict in_script_dir) 0) (answer (trace strict in_script_dir) 1).
Proof.
  eassert (_ ∈ trace strict in_script_dir) as Hin.
  { apply (list_elem_of_lookup_2 _ 4%nat). reflexivity. }
  apply (X2_main_only_after_setup strict in_script_dir _ Hin eq_refl).
Defined.

Lemma X3_witness :
  size (list_to_set (glob in_script_dir design_glob) ∪
        list_to_set (glob in_script_dir test_glob) : gset string)
  = (length (glob in_script_dir design_glob) + length (glob in_script_dir test_glob))%nat.
Proof.
  eassert (_ ∈ trace strict in_script_dir) as Hin.
  { apply (list_elem_of_lookup_2 _ 4%nat). reflexivity. }
  apply (X3_library_complete_at_main strict in_script_dir
           (ref_contract false passes in_script_dir) _ Hin eq_refl).
Defined.

Lemma X5_witness :
  glob in_repo_root design_glob = []
  ∧ Forall (λ ev, method (ev_call ev) ≠ "main") (trace strict in_repo_root).
Proof.
  split; [reflexivity|]. apply Forall_forall.
  apply (X5_no_match_no_tests strict in_repo_root); [|left; reflexivity].
  intros ev p [i Hi]%list_elem_of_lookup Hm Ha Hg.
  do 3 (destruct i as [|i];
        [vm_compute in Hi; injection Hi as <-; first [discriminate Hm|reflexivity]|]).
  vm_compute in Hi. discriminate Hi.
Defined.

Lemma X6_witness :
  ishidden ".#fifo.vhd" = true
  ∧ (join design_dir ".#fifo.vhd" ∉ glob with_lock_file design_glob).
Proof.
  split; [reflexivity|].
  apply (X6_dot_files_never_matched with_lock_file ".#fifo.vhd" eq_refl).
Defined.

Lemma X7_witness : join design_dir "fifo.vhd" ∈ glob in_script_dir design_glob.
Proof.
  apply (X7_patterns_miss_nothing in_script_dir "fifo.vhd" []).
  - by exists "fifo".
  - reflexivity.
  - vm_compute. apply list_elem_of_In. simpl. tauto.
Defined.

Lemma X8_witness : "../src/test/biphase_tb.vhd" ∈ glob in_script_dir test_glob.
Proof.
  apply (X8_matches_under_root in_script_dir ["repo"] "script"
           "../src/test/biphase_tb.vhd" eq_refl).
  exists "biphase_tb.vhd". split; [reflexivity|].
  split; [by exists "biphase_tb"|]. split; [reflexivity|].
  vm_compute. apply list_elem_of_In. simpl. tauto.
Defined.
